(** * Event detail page ([src/app/events/[id]/page.tsx])

    A shallow embedding of the event loader, the image URL resolver, the
    detail-row and speaker selection and the page entry point, followed by
    the properties stated about them.

    Conventions of the embedding.
    - A JavaScript value of type [T | undefined] (or [T | null]) is an
      [option T]; a string is a [String.string].
    - JavaScript truthiness is written out: a string is truthy when it is
      defined and non-empty, an object reference when it is defined.  The
      words "present" and "absent" in the properties below mean truthy
      and falsy.
    - Code that throws, calls the content collaborator or writes to the
      console runs in a small state-and-exception monad whose state holds
      the collaborator's own state and a log of the calls made. *)

From Stdlib Require Import String Ascii List Bool.
Import ListNotations.
Local Open Scope string_scope.
Local Open Scope bool_scope.

(** ** JavaScript values *)

Module JS.

(** [!!s] for [s : string]. *)
Definition truthy (s : string) : bool := negb (s =? "").

(** [!!v] for [v : string | undefined]. *)
Definition truthy_str (v : option string) : bool :=
  match v with
  | Some s => truthy s
  | None => false
  end.

(** [!!v] for an object reference [v : T | undefined]. *)
Definition truthy_obj {A : Type} (v : option A) : bool :=
  match v with
  | Some _ => true
  | None => false
  end.

(** [a || b] on [string | undefined]. *)
Definition or_str (a b : option string) : option string :=
  if truthy_str a then a else b.

(** [a || d] where [d] is a string literal. *)
Definition or_default (a : option string) (d : string) : string :=
  match a with
  | Some s => if truthy s then s else d
  | None => d
  end.

(** [s.startsWith(p)]. *)
Definition startsWith (s p : string) : bool := String.prefix p s.

(** [v?.f] : optional chaining through a field that may itself be
    undefined. *)
Definition chain {A B : Type} (v : option A) (f : A -> option B) : option B :=
  match v with
  | Some a => f a
  | None => None
  end.

End JS.

Notation "v ?. f" := (JS.chain v f) (at level 41, left associativity).

(** ** Data model ([Events] of [@/utils/contentful/types], as this page
    reads it) *)

Record AssetFile := { url : option string }.
Record AssetFields := { file : option AssetFile }.
Record Asset := { asset_fields : option AssetFields }.

Record MinistryFields := { ministryName : option string }.
Record Ministry := { ministry_fields : option MinistryFields }.

Record Sys := { id : string }.

Record EventFields := {
  eventName : option string;
  briefDescription : option string;
  fullDescription : option string;
  eventDate : option string;
  location : option string;
  contactPhoneNumber : option string;
  bannerImage : option Asset;
  ministry : option Ministry;
  firstSpeaker : option string;
  secondSpeaker : option string;
  firstSpeakerPicture : option Asset;
  secondSpeakerPicture : option Asset
}.

Record Events := { sys : Sys; fields : EventFields }.

(** An image reference carrying the given url. *)
Definition asset_of_url (u : string) : Asset :=
  {| asset_fields := Some {| file := Some {| url := Some u |} |} |}.

(** ** Image URL resolver *)

(** [imageField?.fields?.file?.url] *)
Definition asset_url (imageField : option Asset) : option string :=
  imageField ?. asset_fields ?. file ?. url.

Definition buildImageUrl (imageField : option Asset) : option string :=
  let url := asset_url imageField in
  match url with
  | Some u =>
      if JS.truthy u && JS.startsWith u "/" && negb (JS.startsWith u "//")
      then Some u
      else if JS.truthy u then Some ("https:" ++ u) else None
  | None => None
  end.

(** ** The built-in record *)

Definition nl : string := String "010"%char EmptyString.

(** The long description is a template literal; its [\n] escapes are the
    [nl] below and its non-ASCII characters are kept as their UTF-8 bytes. *)
Definition HARDCODED_fullDescription : string :=
  "## About the Summit" ++ nl ++ nl ++
  "On December 4–5, Imo State will host a powerful gathering of leaders, investors, and visionaries ready to unlock new opportunities for growth and innovation." ++ nl ++ nl ++
  "From digital transformation to agriculture, education, energy, and youth empowerment, this summit is where ideas meet investment — and where the future of Imo's economy takes shape." ++ nl ++ nl ++
  "## Key Focus Areas" ++ nl ++ nl ++
  "- **Digital Transformation**: Leveraging technology for economic growth" ++ nl ++
  "- **Agriculture**: Modernizing farming and agribusiness" ++ nl ++
  "- **Education**: Building skills for tomorrow's workforce" ++ nl ++
  "- **Energy**: Sustainable power solutions" ++ nl ++
  "- **Youth Empowerment**: Creating opportunities for the next generation" ++ nl ++ nl ++
  "## Contact Information" ++ nl ++ nl ++
  "For more information, please contact us at info@imoeconomicsummit.com" ++ nl ++ nl ++
  "Let's shape Imo's tomorrow, together. 💪".

Definition HARDCODED_EVENT_DATA : Events :=
  {| sys := {| id := "imo-economic-summit-2025" |};
     fields :=
       {| eventName := Some "Imo Economic Summit 2025";
          briefDescription := Some "A powerful gathering of leaders, investors, and visionaries ready to unlock new opportunities for growth and innovation.";
          fullDescription := Some HARDCODED_fullDescription;
          eventDate := Some "2025-12-04T09:00:00.000Z";
          location := Some "Owerri, Imo State";
          contactPhoneNumber := Some "+234 803 610 1044";
          bannerImage := Some (asset_of_url "/event-imo.jpeg");
          ministry :=
            Some {| ministry_fields :=
                      Some {| ministryName :=
                                Some "Ministry of Lands, Survey and Planning" |} |};
          firstSpeaker := None;
          secondSpeaker := None;
          firstSpeakerPicture := None;
          secondSpeakerPicture := None |} |}.

(** ** What the components render

    The JSX is kept as the data that drives it: which rows, cards and
    sections there are, and what text and image source each one shows. *)

Module Detail.
(** An entry of the [details] array before it is filtered. *)
Record t := { label : string; value : option string; show : bool }.
End Detail.

(** How a detail's value is rendered: [<Link href=...>] or [<p>]. *)
Inductive DetailBody :=
| TelLink (href : string) (text : option string)
| Paragraph (text : option string).

Record DetailRow := { row_label : string; row_body : DetailBody }.

Module Speaker.
(** An entry of the [speakers] array before it is filtered. *)
Record t := { name : option string; imageUrl : option string; show : bool }.
End Speaker.

(** [STAGGER_DELAYS.MEDIUM[index]], kept symbolic: the table is declared
    in [@/utils/constants/animations]. *)
Inductive Delay := STAGGER_MEDIUM (index : nat).

(** The props a [SpeakerCard] receives. *)
Record SpeakerCard := {
  card_speaker : string;
  card_imageUrl : option string;
  card_delay : Delay
}.

Record ImageView := { src : string; alt : string }.

Record Content := {
  hero : ImageView;
  hero_title : option string;
  event_image : option ImageView;
  brief_paragraph : option string;
  markdown : option string;
  details_section : list DetailRow;
  speakers_section : option (list SpeakerCard)
}.

Inductive Placeholder := LoadingState.

(** [<Suspense fallback={...}> children </Suspense>] *)
Inductive PageView := Suspense (fallback : Placeholder) (children : Content).

(** [`${v}`] for [v : string | undefined]. *)
Definition template (v : option string) : string :=
  match v with
  | Some s => s
  | None => "undefined"
  end.

(** [{v && <X>{v}</X>}] : the child is rendered, with the text [v], when
    [v] is truthy; nothing is rendered otherwise. *)
Definition when_truthy (v : option string) : option string :=
  match v with
  | Some s => if JS.truthy s then Some s else None
  | None => None
  end.

(** [xs.map((x, index) => f x index)] *)
Fixpoint mapi_from {A B : Type} (f : A -> nat -> B) (i : nat) (xs : list A) : list B :=
  match xs with
  | [] => []
  | x :: rest => f x i :: mapi_from f (S i) rest
  end.

Section Components.

(** [getRelativeTime] of [@/utils], which formats the event date. *)
Variable getRelativeTime : option string -> string.

(** The [details] array of [EventDetails], after [.filter]. *)
Definition details (event : Events) : list Detail.t :=
  let eventDate := getRelativeTime (eventDate (fields event)) in
  filter Detail.show
    [ {| Detail.label := "DATE:";
         Detail.value := Some eventDate;
         Detail.show := true |};
      {| Detail.label := "PHONE:";
         Detail.value := contactPhoneNumber (fields event);
         Detail.show := JS.truthy_str (contactPhoneNumber (fields event)) |};
      {| Detail.label := "LOCATION:";
         Detail.value := location (fields event);
         Detail.show := JS.truthy_str (location (fields event)) |};
      {| Detail.label := "ORGANIZER:";
         Detail.value :=
           Some (JS.or_default
                   (ministry (fields event) ?. ministry_fields ?. ministryName)
                   "Ministry");
         Detail.show := JS.truthy_obj (ministry (fields event)) |} ].

Definition render_detail (detail : Detail.t) : DetailRow :=
  let isPhone := Detail.label detail =? "PHONE:" in
  {| row_label := Detail.label detail;
     row_body :=
       if isPhone
       then TelLink ("tel:" ++ template (Detail.value detail)) (Detail.value detail)
       else Paragraph (Detail.value detail) |}.

Definition EventDetails (event : Events) : list DetailRow :=
  map render_detail (details event).

(** The [speakers] array of [SpeakersSection], after [.filter]. *)
Definition speakers (event : Events) : list Speaker.t :=
  let firstSpeakerImageUrl := buildImageUrl (firstSpeakerPicture (fields event)) in
  let secondSpeakerImageUrl := buildImageUrl (secondSpeakerPicture (fields event)) in
  filter Speaker.show
    [ {| Speaker.name := firstSpeaker (fields event);
         Speaker.imageUrl := firstSpeakerImageUrl;
         Speaker.show := JS.truthy_str (firstSpeaker (fields event)) |};
      {| Speaker.name := secondSpeaker (fields event);
         Speaker.imageUrl := secondSpeakerImageUrl;
         Speaker.show := JS.truthy_str (secondSpeaker (fields event)) |} ].

Definition render_speaker (speaker : Speaker.t) (index : nat) : SpeakerCard :=
  {| card_speaker := JS.or_default (Speaker.name speaker) "Speaker";
     card_imageUrl := Speaker.imageUrl speaker;
     card_delay := STAGGER_MEDIUM index |}.

(** [None] is the component returning [null]. *)
Definition SpeakersSection (event : Events) : option (list SpeakerCard) :=
  let speakers := speakers event in
  if Nat.eqb (length speakers) 0 then None
  else Some (mapi_from render_speaker 0 speakers).

Definition bannerImageUrl (event : Events) : string :=
  JS.or_default (buildImageUrl (bannerImage (fields event))) "/hero_section.png".

Definition EventContent (event : Events) : Content :=
  let bannerImageUrl := bannerImageUrl event in
  {| hero :=
       {| src := bannerImageUrl;
          alt := JS.or_default (eventName (fields event)) "Event banner" |};
     hero_title := eventName (fields event);
     event_image :=
       if JS.truthy bannerImageUrl && negb (bannerImageUrl =? "/hero_section.png")
       then Some {| src := bannerImageUrl;
                    alt := JS.or_default (eventName (fields event)) "Event image" |}
       else None;
     brief_paragraph := when_truthy (briefDescription (fields event));
     markdown := when_truthy (fullDescription (fields event));
     details_section := EventDetails event;
     speakers_section := SpeakersSection event |}.

(** *** The rows and cards the properties speak of *)

Definition date_row (event : Events) : DetailRow :=
  {| row_label := "DATE:";
     row_body := Paragraph (Some (getRelativeTime (eventDate (fields event)))) |}.

Definition phone_row (event : Events) : DetailRow :=
  {| row_label := "PHONE:";
     row_body :=
       TelLink ("tel:" ++ template (contactPhoneNumber (fields event)))
               (contactPhoneNumber (fields event)) |}.

Definition location_row (event : Events) : DetailRow :=
  {| row_label := "LOCATION:"; row_body := Paragraph (location (fields event)) |}.

Definition organizer_row (event : Events) : DetailRow :=
  {| row_label := "ORGANIZER:";
     row_body :=
       Paragraph
         (Some (JS.or_default
                  (ministry (fields event) ?. ministry_fields ?. ministryName)
                  "Ministry")) |}.

(** [x] when [b] holds, nothing otherwise. *)
Definition only_if {A : Type} (b : bool) (x : A) : list A :=
  if b then [x] else [].

(** The cards a speakers section shows; a section that renders nothing
    shows none. *)
Definition cards (event : Events) : list SpeakerCard :=
  match SpeakersSection event with
  | Some cs => cs
  | None => []
  end.

Definition first_card (event : Events) : SpeakerCard :=
  {| card_speaker := JS.or_default (firstSpeaker (fields event)) "Speaker";
     card_imageUrl := buildImageUrl (firstSpeakerPicture (fields event));
     card_delay := STAGGER_MEDIUM 0 |}.

Definition second_card (event : Events) (index : nat) : SpeakerCard :=
  {| card_speaker := JS.or_default (secondSpeaker (fields event)) "Speaker";
     card_imageUrl := buildImageUrl (secondSpeakerPicture (fields event));
     card_delay := STAGGER_MEDIUM index |}.

End Components.

(** ** Effects: the content collaborator, the console, thrown values *)

Section Effects.

(** The collaborator's own state and the values it may throw. *)
Variables (Remote Err : Type).

(** What escapes a function by [throw]: the not-found signal of
    [next/navigation], or whatever the collaborator rejected with. *)
Inductive Thrown :=
| NEXT_NOT_FOUND
| Rejected (e : Err).

(** The calls that are observed. [CallGetEventData] records entry into
    the loader, it has no counterpart in the source text. *)
Inductive Call :=
| CallGetEventData (id : string)
| CallGetEventById (id : string)
| CallConsoleError (message : string) (error : Thrown).

Record World := { remote : Remote; calls : list Call }.

Definition M (A : Type) : Type := World -> (Thrown + A) * World.

Definition ret {A : Type} (a : A) : M A := fun w => (inr a, w).

Definition bind {A B : Type} (m : M A) (k : A -> M B) : M B :=
  fun w =>
    match m w with
    | (inr a, w') => k a w'
    | (inl t, w') => (inl t, w')
    end.

Definition throw {A : Type} (t : Thrown) : M A := fun w => (inl t, w).

(** [try { body } catch (error) { handler }] *)
Definition try_catch {A : Type} (body : M A) (handler : Thrown -> M A) : M A :=
  fun w =>
    match body w with
    | (inr a, w') => (inr a, w')
    | (inl t, w') => handler t w'
    end.

Definition record (c : Call) : M unit :=
  fun w => (inr tt, {| remote := remote w; calls := calls w ++ [c] |}).

(** [contentfulService.getEventById] of [@/utils/contentful]: given an
    id it resolves to a record, resolves to none, or rejects, and may
    change its own state on the way. *)
Variable getEventById : string -> Remote -> (Err + option Events) * Remote.

Definition contentfulService_getEventById (id : string) : M (option Events) :=
  fun w =>
    let w1 := {| remote := remote w; calls := calls w ++ [CallGetEventById id] |} in
    match getEventById id (remote w1) with
    | (inr event, r) => (inr event, {| remote := r; calls := calls w1 |})
    | (inl e, r) => (inl (Rejected e), {| remote := r; calls := calls w1 |})
    end.

Definition console_error (message : string) (error : Thrown) : M unit :=
  record (CallConsoleError message error).

(** [notFound()] of [next/navigation] never returns. *)
Definition notFound {A : Type} : M A := throw NEXT_NOT_FOUND.

Notation "x <- m ;; k" := (bind m (fun x => k))
  (at level 61, m at next level, right associativity).
Notation "m ;; k" := (bind m (fun _ => k))
  (at level 61, right associativity).

(** ** Event loader *)

Definition getEventData (id : string) : M (option Events) :=
  record (CallGetEventData id) ;;
  try_catch
    (if id =? "imo-economic-summit-2025"
     then ret (Some HARDCODED_EVENT_DATA)
     else
       event <- contentfulService_getEventById id ;;
       ret event)
    (fun error =>
       console_error "Error fetching event:" error ;;
       ret None).

(** ** Page entry point *)

(** [searchParams.id : string | string[] | undefined] *)
Inductive SearchValue :=
| SearchUndefined
| SearchString (s : string)
| SearchArray (l : list string).

(** The resolved [params] and [searchParams], as far as the page reads
    them. *)
Record PageProps := {
  params_id : option string;
  searchParams_id : SearchValue
}.

Definition eventIdFromParams (props : PageProps) : option string :=
  params_id props.

Definition eventIdFromSearch (props : PageProps) : option string :=
  match searchParams_id props with
  | SearchString s => Some s
  | SearchArray l => nth_error l 0
  | SearchUndefined => None
  end.

Definition actualEventId (props : PageProps) : option string :=
  JS.or_str (eventIdFromSearch props) (eventIdFromParams props).

Variable getRelativeTime : option string -> string.

(** The two [if (!x) notFound()] guards narrow [x]; the narrowing is the
    pattern matching below. *)
Definition EventDetailPage (props : PageProps) : M PageView :=
  match actualEventId props with
  | Some actualEventId =>
      if negb (JS.truthy actualEventId) then notFound
      else
        event <- getEventData actualEventId ;;
        match event with
        | None => notFound
        | Some event =>
            ret (Suspense LoadingState (EventContent getRelativeTime event))
        end
  | None => notFound
  end.

(** The outcome of a run, and the calls it added to the log. *)
Definition outcome {A : Type} (m : M A) (w : World) : Thrown + A := fst (m w).

Definition not_found {A : Type} (m : M A) (w : World) : Prop :=
  outcome m w = inl NEXT_NOT_FOUND.

End Effects.

Arguments NEXT_NOT_FOUND {Err}.
Arguments Rejected {Err} e.
Arguments CallGetEventData {Err} id.
Arguments CallGetEventById {Err} id.
Arguments CallConsoleError {Err} message error.
Arguments Build_World {Remote Err} remote calls.
Arguments remote {Remote Err} w.
Arguments calls {Remote Err} w.
Arguments ret {Remote Err A} a w.
Arguments bind {Remote Err A B} m k w.
Arguments throw {Remote Err A} t w.
Arguments try_catch {Remote Err A} body handler w.
Arguments record {Remote Err} c w.
Arguments console_error {Remote Err} message error w.
Arguments notFound {Remote Err A} w.
Arguments contentfulService_getEventById {Remote Err} getEventById id w.
Arguments getEventData {Remote Err} getEventById id w.
Arguments EventDetailPage {Remote Err} getEventById getRelativeTime props w.
Arguments outcome {Remote Err A} m w.
Arguments not_found {Remote Err A} m w.

(** ** How the collaborator's lookup can come back empty-handed *)

Section Lookup.

Variables (Remote Err : Type).
Variable getEventById : string -> Remote -> (Err + option Events) * Remote.

(** The lookup of [id], started in world [w], throws. *)
Definition lookup_throws (id : string) (w : World Remote Err) : Prop :=
  exists e r, getEventById id (remote w) = (inl e, r).

(** The lookup of [id], started in world [w], returns no record. *)
Definition lookup_returns_none (id : string) (w : World Remote Err) : Prop :=
  exists r, getEventById id (remote w) = (inr None, r).

End Lookup.

Arguments lookup_throws {Remote Err} getEventById id w.
Arguments lookup_returns_none {Remote Err} getEventById id w.

(** ** Concrete collaborators, records and requests *)

Module Sample.

(** A date formatter that prints the date as it is stored. *)
Definition verbatim_date (d : option string) : string := template d.

(** A content service that cannot be reached. *)
Definition unreachable (_ : string) (r : unit) : (string + option Events) * unit :=
  (inl "ECONNREFUSED", r).

(** A content service that holds no record at all. *)
Definition empty (_ : string) (r : unit) : (string + option Events) * unit :=
  (inr None, r).

Definition fresh : World unit string := {| remote := tt; calls := [] |}.

Definition cdn_banner : string := "//images.ctfassets.net/space/banner.png".

Definition no_fields : EventFields :=
  {| eventName := None; briefDescription := None; fullDescription := None;
     eventDate := None; location := None; contactPhoneNumber := None;
     bannerImage := None; ministry := None;
     firstSpeaker := None; secondSpeaker := None;
     firstSpeakerPicture := None; secondSpeakerPicture := None |}.

(** An event of which only the id is known. *)
Definition bare : Events := {| sys := {| id := "bare" |}; fields := no_fields |}.

(** An event that names its ministry without giving the ministry a name,
    has a single (second) speaker and no banner. *)
Definition workshop : Events :=
  {| sys := {| id := "workshop-1" |};
     fields :=
       {| eventName := Some "Survey Workshop";
          briefDescription := None; fullDescription := None;
          eventDate := Some "2025-11-01T10:00:00.000Z";
          location := None;
          contactPhoneNumber := Some "+234 800 000 0000";
          bannerImage := None;
          ministry := Some {| ministry_fields := Some {| ministryName := None |} |};
          firstSpeaker := None;
          secondSpeaker := Some "A. Surveyor";
          firstSpeakerPicture := None;
          secondSpeakerPicture := Some (asset_of_url cdn_banner) |} |}.

(** [/events/abc?id=xyz] *)
Definition both_ids : PageProps :=
  {| params_id := Some "abc"; searchParams_id := SearchString "xyz" |}.

(** [/events/abc] *)
Definition path_only : PageProps :=
  {| params_id := Some "abc"; searchParams_id := SearchUndefined |}.

(** Neither a path segment nor a query parameter. *)
Definition no_ids : PageProps :=
  {| params_id := None; searchParams_id := SearchUndefined |}.

(** A content service that holds the workshop record only; its state
    counts the lookups it has served. *)
Definition catalogue (i : string) (served : nat) : (string + option Events) * nat :=
  (inr (if i =? "workshop-1" then Some workshop else None), S served).

Definition idle : World nat string := {| remote := 0; calls := [] |}.

(** [/events/workshop-1] *)
Definition workshop_path : PageProps :=
  {| params_id := Some "workshop-1"; searchParams_id := SearchUndefined |}.

(** [/events/abc?id=&id=workshop-1] *)
Definition empty_first_query : PageProps :=
  {| params_id := Some "abc"; searchParams_id := SearchArray [""; "workshop-1"] |}.

(** [/events/abc?id=imo-economic-summit-2025] *)
Definition summit_query : PageProps :=
  {| params_id := Some "abc";
     searchParams_id := SearchString "imo-economic-summit-2025" |}.

(** An event with two named speakers, the first without a picture. *)
Definition panel : Events :=
  {| sys := {| id := "panel-1" |};
     fields :=
       {| eventName := None;
          briefDescription := None; fullDescription := None;
          eventDate := None;
          location := Some "Owerri";
          contactPhoneNumber := None;
          bannerImage := Some (asset_of_url cdn_banner);
          ministry :=
            Some {| ministry_fields :=
                      Some {| ministryName := Some "Ministry of Lands" |} |};
          firstSpeaker := Some "B. Planner";
          secondSpeaker := Some "A. Surveyor";
          firstSpeakerPicture := None;
          secondSpeakerPicture := Some (asset_of_url "/speakers/a.png") |} |}.

End Sample.

(** ** What a speaker card shows *)

Record SpeakerCardView := {
  view_delay : Delay;
  view_image : option ImageView;
  view_caption : string;
  view_heading : string
}.

(** The [SpeakerCard] component: the picture is rendered when [imageUrl]
    is truthy, with the speaker as its alt text. *)
Definition SpeakerCard_view (props : SpeakerCard) : SpeakerCardView :=
  {| view_delay := card_delay props;
     view_image :=
       match card_imageUrl props with
       | Some imageUrl =>
           if JS.truthy imageUrl
           then Some {| src := imageUrl; alt := card_speaker props |}
           else None
       | None => None
       end;
     view_caption := "Speaker";
     view_heading := card_speaker props |}.

(** ** Vocabulary of the properties *)

(** The text a detail row shows. *)
Definition body_text (b : DetailBody) : option string :=
  match b with
  | TelLink _ text => text
  | Paragraph text => text
  end.

(** Every [<Image>] of the page content: the hero, the standalone event
    image, the speakers' pictures. *)
Definition images (c : Content) : list ImageView :=
  (hero c
   :: match event_image c with
      | Some i => [i]
      | None => []
      end
   ++ match speakers_section c with
      | Some cs =>
          flat_map
            (fun card =>
               match view_image (SpeakerCard_view card) with
               | Some i => [i]
               | None => []
               end)
            cs
      | None => []
      end)%list.

(** A url an image can be loaded from as it stands: host-relative or
    absolute over https, and not protocol-relative. *)
Definition loadable (s : string) : Prop :=
  (JS.startsWith s "/" = true \/ JS.startsWith s "https:" = true) /\
  JS.startsWith s "//" = false.

(** The collaborator answers a lookup only with a record of the id asked
    for. *)
Definition id_faithful {Remote Err : Type}
    (getEventById : string -> Remote -> (Err + option Events) * Remote) : Prop :=
  forall (i : string) (r r' : Remote) (event : Events),
    getEventById i r = (inr (Some event), r') -> id (sys event) = i.


(** ** Facts about strings *)

Lemma truthy_nonempty (s : string) : JS.truthy s = true <-> s <> "".
Proof.
  unfold JS.truthy. destruct (String.eqb_spec s "") as [E | E].
  - split; [discriminate | intros H; now elim H].
  - split; [intros _; exact E | reflexivity].
Qed.

Lemma prefix_append (p s : string) :
  String.prefix p s = true <-> exists t, s = p ++ t.
Proof.
  revert s. induction p as [| a p IH]; intros s.
  - split; [intros _; now exists s | intros _; now destruct s].
  - destruct s as [| b s]; simpl.
    + split; [discriminate | intros [t E]; discriminate].
    + destruct (Ascii.ascii_dec a b) as [-> | N].
      * rewrite IH. split; intros [t E]; exists t.
        -- now rewrite E.
        -- now injection E.
      * split; [discriminate | intros [t E]; injection E; intros _ ?; now elim N].
Qed.

Lemma startsWith_append (s p : string) :
  JS.startsWith s p = true <-> exists t, s = p ++ t.
Proof. apply prefix_append. Qed.

Lemma startsWith_slash_truthy (u : string) :
  JS.startsWith u "/" = true -> JS.truthy u = true.
Proof. now destruct u. Qed.

(** The url of a reference is truthy exactly when every link of the chain
    is defined and the string is non-empty. *)
Lemma asset_url_truthy (r : option Asset) :
  JS.truthy_str (asset_url r) = true <->
  exists a f fl u,
    r = Some a /\ asset_fields a = Some f /\ file f = Some fl /\
    url fl = Some u /\ u <> "".
Proof.
  split.
  - destruct r as [[[[[[[u |]] |]] |]] |]; simpl; try discriminate.
    intros H. apply truthy_nonempty in H.
    eexists _, _, _, u. now repeat split.
  - intros (a & f & fl & u & -> & Ha & Hf & Hu & Hne).
    unfold asset_url; simpl. rewrite Ha; simpl. rewrite Hf; simpl.
    rewrite Hu; simpl. now apply truthy_nonempty.
Qed.

Lemma buildImageUrl_truthy (r : option Asset) (u : string) :
  buildImageUrl r = Some u -> JS.truthy u = true.
Proof.
  unfold buildImageUrl. destruct (asset_url r) as [v |]; [| discriminate].
  destruct (JS.truthy v) eqn:T; simpl.
  - destruct (JS.startsWith v "/" && negb (JS.startsWith v "//"));
      intros E; injection E as <-; [exact T | reflexivity].
  - discriminate.
Qed.

(** ** Image URL resolver: properties *)

Lemma buildImageUrl_of_url (imageField : option Asset) (u : string) :
  asset_url imageField = Some u ->
  buildImageUrl imageField =
    if JS.startsWith u "/" && negb (JS.startsWith u "//") then Some u
    else if JS.truthy u then Some ("https:" ++ u) else None.
Proof.
  intros E. unfold buildImageUrl. rewrite E.
  destruct (JS.startsWith u "/") eqn:S1.
  - now rewrite (startsWith_slash_truthy u S1).
  - now rewrite andb_false_r.
Qed.

(** An empty url is falsy: the resolver treats it as no url. *)
Lemma buildImageUrl_empty_url :
  buildImageUrl (Some (asset_of_url "")) = None.
Proof. reflexivity. Qed.

(** C1. For every image reference: when its url starts with a single
    slash (with ["/"] but not with ["//"]) the resolver returns the url
    unchanged; otherwise, when the url is present (truthy), it returns
    the url prefixed with ["https:"]; when the reference or its url is
    absent (falsy), it returns null. *)
Theorem buildImageUrl_resolves (imageField : option Asset) :
  (forall u : string,
      asset_url imageField = Some u ->
      JS.startsWith u "/" = true -> JS.startsWith u "//" = false ->
      buildImageUrl imageField = Some u) /\
  (forall u : string,
      asset_url imageField = Some u -> JS.truthy u = true ->
      ~ (JS.startsWith u "/" = true /\ JS.startsWith u "//" = false) ->
      buildImageUrl imageField = Some ("https:" ++ u)) /\
  (imageField = None \/ JS.truthy_str (asset_url imageField) = false ->
   buildImageUrl imageField = None).
Proof.
  split; [| split].
  - intros u E S1 S2. rewrite (buildImageUrl_of_url _ _ E), S1, S2. reflexivity.
  - intros u E T N. rewrite (buildImageUrl_of_url _ _ E), T.
    destruct (JS.startsWith u "/") eqn:S1; [| reflexivity].
    destruct (JS.startsWith u "//") eqn:S2; [reflexivity |].
    exfalso. apply N. now split.
  - intros [-> | F]; [reflexivity |].
    unfold buildImageUrl. destruct (asset_url imageField) as [u |]; [| reflexivity].
    simpl in F. rewrite F. now rewrite andb_false_l.
Qed.

Lemma buildImageUrl_resolves_witness :
  buildImageUrl (Some (asset_of_url "/event-imo.jpeg")) = Some "/event-imo.jpeg" /\
  buildImageUrl (Some (asset_of_url Sample.cdn_banner)) =
    Some ("https:" ++ Sample.cdn_banner) /\
  buildImageUrl (Some {| asset_fields := None |}) = None.
Proof.
  split; [| split].
  - apply (proj1 (buildImageUrl_resolves _) "/event-imo.jpeg"); reflexivity.
  - apply (proj1 (proj2 (buildImageUrl_resolves _)) Sample.cdn_banner).
    + reflexivity.
    + reflexivity.
    + intros [_ H]. discriminate H.
  - apply (proj2 (proj2 (buildImageUrl_resolves _))). right. reflexivity.
Defined.

(** A url that starts with a slash is not always returned unchanged (a
    protocol-relative url is prefixed), and a url that does not start with
    a slash is not always prefixed (an empty url yields null). *)
Lemma buildImageUrl_leading_slash_counterexample :
  (JS.startsWith "//cdn.example/a.png" "/" = true /\
   buildImageUrl (Some (asset_of_url "//cdn.example/a.png")) =
     Some "https://cdn.example/a.png" /\
   buildImageUrl (Some (asset_of_url "//cdn.example/a.png")) <>
     Some "//cdn.example/a.png") /\
  (JS.startsWith "" "/" = false /\
   buildImageUrl (Some (asset_of_url "")) = None /\
   buildImageUrl (Some (asset_of_url "")) <> Some ("https:" ++ "")).
Proof. repeat split; discriminate. Qed.

(** C2, amended. For every present image reference with url [u]: when [u]
    starts with ["/"] but not with ["//"], the resolver returns [u]
    unchanged; when [u] is non-empty and either does not start with ["/"]
    or starts with ["//"], it returns [u] prefixed with ["https:"].  For an
    absent reference it returns null. *)
Theorem buildImageUrl_by_leading_slash (a : Asset) (u : string) :
  asset_url (Some a) = Some u ->
  ((exists t, u = "/" ++ t) -> ~ (exists t, u = "//" ++ t) ->
   buildImageUrl (Some a) = Some u) /\
  (u <> "" -> ~ (exists t, u = "/" ++ t) \/ (exists t, u = "//" ++ t) ->
   buildImageUrl (Some a) = Some ("https:" ++ u)) /\
  buildImageUrl None = None.
Proof.
  intros E. rewrite (buildImageUrl_of_url _ _ E).
  rewrite <- !startsWith_append, <- truthy_nonempty.
  split; [| split].
  - intros S1 S2. rewrite S1. destruct (JS.startsWith u "//"); [now elim S2 | reflexivity].
  - intros T [S1 | S2].
    + destruct (JS.startsWith u "/"); [now elim S1 | now rewrite T].
    + now rewrite S2, andb_false_r, T.
  - reflexivity.
Qed.

Lemma buildImageUrl_by_leading_slash_witness :
  buildImageUrl (Some (asset_of_url "/event-imo.jpeg")) = Some "/event-imo.jpeg" /\
  buildImageUrl (Some (asset_of_url Sample.cdn_banner)) =
    Some ("https:" ++ Sample.cdn_banner).
Proof.
  split.
  - apply (buildImageUrl_by_leading_slash
             (asset_of_url "/event-imo.jpeg") "/event-imo.jpeg").
    + reflexivity.
    + exists "event-imo.jpeg". reflexivity.
    + intros [t E]. discriminate E.
  - apply (buildImageUrl_by_leading_slash
             (asset_of_url Sample.cdn_banner) Sample.cdn_banner).
    + reflexivity.
    + discriminate.
    + right. exists "images.ctfassets.net/space/banner.png". reflexivity.
Defined.

(** ** Event loader and page entry point: properties *)

Section Loading.

Variables (Remote Err : Type).
Variable getEventById : string -> Remote -> (Err + option Events) * Remote.
Variable getRelativeTime : option string -> string.

Local Abbreviation loader := (getEventData getEventById).
Local Abbreviation page := (EventDetailPage getEventById getRelativeTime).

(** Entering the loader is the first call a run of it logs. *)
Lemma getEventData_logs_entry (id : string) (w : World Remote Err) :
  exists rest,
    calls (snd (loader id w)) = (calls w ++ CallGetEventData id :: rest)%list.
Proof.
  unfold getEventData, bind, try_catch, record; simpl.
  destruct (id =? "imo-economic-summit-2025").
  - exists []. reflexivity.
  - unfold contentfulService_getEventById, ret; simpl.
    destruct (getEventById id (remote w)) as [[e | event] r]; simpl.
    + eexists. rewrite <- !app_assoc. reflexivity.
    + eexists. rewrite <- !app_assoc. reflexivity.
Qed.

(** The loader never lets a thrown value escape. *)
Lemma getEventData_total (id : string) (w : World Remote Err) :
  exists event, outcome (loader id) w = inr event.
Proof.
  unfold outcome, getEventData, bind, try_catch, record; simpl.
  destruct (id =? "imo-economic-summit-2025").
  - eexists. reflexivity.
  - unfold contentfulService_getEventById, ret; simpl.
    destruct (getEventById id (remote w)) as [[e | event] r]; simpl;
      eexists; reflexivity.
Qed.

(** A lookup that throws is swallowed and reported on the console. *)
Lemma getEventData_logs_failure (id : string) (w : World Remote Err) (e : Err) (r : Remote) :
  id <> "imo-economic-summit-2025" ->
  getEventById id (remote w) = (inl e, r) ->
  loader id w =
    (inr None,
     {| remote := r;
        calls := (calls w ++ [CallGetEventData id; CallGetEventById id;
                              CallConsoleError "Error fetching event:" (Rejected e)])%list |}).
Proof.
  intros N E. apply String.eqb_neq in N.
  unfold getEventData, bind, try_catch, record; simpl. rewrite N.
  unfold contentfulService_getEventById, ret; simpl. rewrite E; simpl.
  unfold console_error, record, bind, ret; simpl.
  now rewrite <- !app_assoc.
Qed.

(** What the page does once the id is known to be truthy. *)
Lemma EventDetailPage_with_id (props : PageProps) (id : string) (w : World Remote Err) :
  actualEventId props = Some id -> JS.truthy id = true ->
  page props w =
    match loader id w with
    | (inr (Some event), w') =>
        (inr (Suspense LoadingState (EventContent getRelativeTime event)), w')
    | (inr None, w') => (inl NEXT_NOT_FOUND, w')
    | (inl t, w') => (inl t, w')
    end.
Proof.
  intros E T. unfold EventDetailPage. rewrite E, T. simpl. unfold bind.
  destruct (loader id w) as [[t | [event |]] w']; reflexivity.
Qed.

(** C3. For the sentinel identifier the loader returns the built-in
    record, whatever the collaborator is: the collaborator's state is left
    as it was and the only call logged is the entry into the loader, so
    the by-id lookup is not invoked. *)
Theorem getEventData_sentinel (w : World Remote Err) :
  loader "imo-economic-summit-2025" w =
    (inr (Some HARDCODED_EVENT_DATA),
     {| remote := remote w;
        calls := (calls w ++ [CallGetEventData "imo-economic-summit-2025"])%list |}) /\
  (forall id : string,
      In (CallGetEventById id)
         (calls (snd (loader "imo-economic-summit-2025" w))) ->
      In (CallGetEventById id) (calls w)).
Proof.
  split; [reflexivity |].
  intros id H. simpl in H. apply in_app_or in H. destruct H as [H | [H | []]].
  - exact H.
  - discriminate H.
Qed.

(** C4. For a non-sentinel identifier whose lookup throws, the loader
    returns null instead of letting the error escape, and the page ends
    in the not-found outcome; the page ends in the same outcome when the
    lookup returns no record. *)
Theorem lookup_failure_is_not_found (id : string) (w : World Remote Err) :
  id <> "imo-economic-summit-2025" ->
  lookup_throws getEventById id w \/ lookup_returns_none getEventById id w ->
  outcome (loader id) w = inr None /\
  (forall props : PageProps,
      actualEventId props = Some id ->
      outcome (page props) w = inl NEXT_NOT_FOUND).
Proof.
  intros N L.
  assert (Hload : outcome (loader id) w = inr None).
  { apply String.eqb_neq in N.
    unfold outcome, getEventData, bind, try_catch, record; simpl. rewrite N.
    unfold contentfulService_getEventById, ret; simpl.
    destruct L as [(e & r & E) | (r & E)]; rewrite E; reflexivity. }
  split; [exact Hload |].
  intros props E. destruct (JS.truthy id) eqn:T.
  - unfold outcome in *. rewrite (EventDetailPage_with_id props id w E T).
    destruct (loader id w) as [[t | [event |]] w']; simpl in *;
      try discriminate; reflexivity.
  - unfold outcome, EventDetailPage. rewrite E, T. reflexivity.
Qed.

(** C6. When the query-parameter identifier and the path-segment
    identifier are both present (truthy), the event id is the
    query-parameter one, and it is the id the loader is entered with. *)
Theorem query_id_takes_precedence
    (props : PageProps) (q p : string) (w : World Remote Err) :
  eventIdFromSearch props = Some q -> JS.truthy q = true ->
  eventIdFromParams props = Some p -> JS.truthy p = true ->
  actualEventId props = Some q /\
  exists rest,
    calls (snd (page props w)) = (calls w ++ CallGetEventData q :: rest)%list.
Proof.
  intros Eq Tq _ _.
  assert (E : actualEventId props = Some q).
  { unfold actualEventId, JS.or_str. rewrite Eq. simpl. now rewrite Tq. }
  split; [exact E |].
  rewrite (EventDetailPage_with_id props q w E Tq).
  destruct (getEventData_logs_entry q w) as [rest H].
  exists rest. destruct (loader q w) as [[t | [event |]] w']; exact H.
Qed.

(** C7. When the path-segment id and the query-parameter id are both
    absent (falsy), the page ends in the not-found outcome and leaves the
    world as it found it: nothing is logged, so the loader is not
    entered. *)
Theorem missing_id_is_not_found (props : PageProps) (w : World Remote Err) :
  JS.truthy_str (eventIdFromParams props) = false ->
  JS.truthy_str (eventIdFromSearch props) = false ->
  page props w = (inl NEXT_NOT_FOUND, w).
Proof.
  intros Fp Fs. unfold EventDetailPage, actualEventId, JS.or_str. rewrite Fs.
  destruct (eventIdFromParams props) as [p |]; [| reflexivity].
  simpl in Fp. rewrite Fp. reflexivity.
Qed.

End Loading.

Lemma lookup_failure_is_not_found_witness :
  outcome (getEventData Sample.unreachable "abc") Sample.fresh = inr None /\
  outcome (EventDetailPage Sample.unreachable Sample.verbatim_date Sample.path_only)
          Sample.fresh = inl NEXT_NOT_FOUND /\
  outcome (EventDetailPage Sample.empty Sample.verbatim_date Sample.path_only)
          Sample.fresh = inl NEXT_NOT_FOUND.
Proof.
  split; [| split].
  - apply (lookup_failure_is_not_found unit string Sample.unreachable
             Sample.verbatim_date "abc" Sample.fresh).
    + discriminate.
    + left. exists "ECONNREFUSED", tt. reflexivity.
  - apply (lookup_failure_is_not_found unit string Sample.unreachable
             Sample.verbatim_date "abc" Sample.fresh).
    + discriminate.
    + left. exists "ECONNREFUSED", tt. reflexivity.
    + reflexivity.
  - apply (lookup_failure_is_not_found unit string Sample.empty
             Sample.verbatim_date "abc" Sample.fresh).
    + discriminate.
    + right. exists tt. reflexivity.
    + reflexivity.
Defined.

Lemma query_id_takes_precedence_witness :
  actualEventId Sample.both_ids = Some "xyz".
Proof.
  apply (query_id_takes_precedence unit string Sample.empty Sample.verbatim_date
           Sample.both_ids "xyz" "abc" Sample.fresh); reflexivity.
Defined.

Lemma missing_id_is_not_found_witness :
  EventDetailPage Sample.unreachable Sample.verbatim_date Sample.no_ids Sample.fresh =
    (inl NEXT_NOT_FOUND, Sample.fresh).
Proof.
  apply (missing_id_is_not_found unit string Sample.unreachable
           Sample.verbatim_date Sample.no_ids Sample.fresh); reflexivity.
Defined.

(** ** Page sections: properties *)

Section Rendering.

Variable getRelativeTime : option string -> string.

Local Abbreviation rows := (EventDetails getRelativeTime).
Local Abbreviation section_of := (SpeakersSection).
Local Abbreviation content := (EventContent getRelativeTime).

Lemma in_only_if {A : Type} (b : bool) (x y : A) :
  In y (only_if b x) <-> b = true /\ y = x.
Proof.
  destruct b; simpl; split.
  - intros [<- | []]. now split.
  - intros [_ ->]. now left.
  - intros [].
  - intros [H _]. discriminate H.
Qed.

Lemma EventDetails_rows (event : Events) :
  rows event =
    (date_row getRelativeTime event
     :: only_if (JS.truthy_str (contactPhoneNumber (fields event))) (phone_row event)
     ++ only_if (JS.truthy_str (location (fields event))) (location_row event)
     ++ only_if (JS.truthy_obj (ministry (fields event))) (organizer_row event))%list.
Proof.
  unfold EventDetails, details; simpl.
  destruct (JS.truthy_str (contactPhoneNumber (fields event)));
    destruct (JS.truthy_str (location (fields event)));
    destruct (JS.truthy_obj (ministry (fields event))); reflexivity.
Qed.

(** C5. The detail rows are, in this order: the DATE row, always; the
    PHONE row iff the phone number is truthy; the LOCATION row iff the
    location is truthy; the ORGANIZER row iff the ministry reference is
    truthy.  There is no other row. *)
Theorem EventDetails_labels (event : Events) :
  map row_label (rows event) =
    ("DATE:"
     :: only_if (JS.truthy_str (contactPhoneNumber (fields event))) "PHONE:"
     ++ only_if (JS.truthy_str (location (fields event))) "LOCATION:"
     ++ only_if (JS.truthy_obj (ministry (fields event))) "ORGANIZER:")%list /\
  In "DATE:" (map row_label (rows event)) /\
  (In "PHONE:" (map row_label (rows event)) <->
   JS.truthy_str (contactPhoneNumber (fields event)) = true) /\
  (In "LOCATION:" (map row_label (rows event)) <->
   JS.truthy_str (location (fields event)) = true) /\
  (In "ORGANIZER:" (map row_label (rows event)) <->
   JS.truthy_obj (ministry (fields event)) = true).
Proof.
  assert (L : map row_label (rows event) =
    ("DATE:"
     :: only_if (JS.truthy_str (contactPhoneNumber (fields event))) "PHONE:"
     ++ only_if (JS.truthy_str (location (fields event))) "LOCATION:"
     ++ only_if (JS.truthy_obj (ministry (fields event))) "ORGANIZER:")%list).
  { rewrite EventDetails_rows.
    destruct (JS.truthy_str (contactPhoneNumber (fields event)));
      destruct (JS.truthy_str (location (fields event)));
      destruct (JS.truthy_obj (ministry (fields event))); reflexivity. }
  split; [exact L |]. rewrite L. split; [now left |].
  repeat split; simpl; rewrite ?in_app_iff, ?in_only_if.
  - intros [H | [[H _] | [[_ H] | [_ H]]]]; (exact H || discriminate H).
  - intros H. right. left. now split.
  - intros [H | [[_ H] | [[H _] | [_ H]]]]; (exact H || discriminate H).
  - intros H. right. right. left. now split.
  - intros [H | [[_ H] | [[_ H] | [H _]]]]; (exact H || discriminate H).
  - intros H. right. right. right. now split.
Qed.

(** C10. When the ministry reference is truthy and its name is absent,
    the ORGANIZER row is there and reads ["Ministry"]; whether there is an
    ORGANIZER row at all is decided by the ministry reference alone. *)
Theorem organizer_row_fallback (event : Events) :
  (JS.truthy_obj (ministry (fields event)) = true ->
   JS.truthy_str (ministry (fields event) ?. ministry_fields ?. ministryName) = false ->
   In {| row_label := "ORGANIZER:"; row_body := Paragraph (Some "Ministry") |}
      (rows event)) /\
  ((exists body, In {| row_label := "ORGANIZER:"; row_body := body |} (rows event)) <->
   JS.truthy_obj (ministry (fields event)) = true).
Proof.
  rewrite EventDetails_rows. split.
  - intros T F. right. rewrite !in_app_iff, !in_only_if. right. right.
    split; [exact T |]. unfold organizer_row. do 3 f_equal.
    destruct (ministry (fields event) ?. ministry_fields ?. ministryName) as [n |];
      [| reflexivity].
    simpl in *. now rewrite F.
  - split.
    + intros [body [H | H]]; [discriminate H |].
      rewrite !in_app_iff, !in_only_if in H.
      destruct H as [[_ H] | [[_ H] | [H _]]]; (exact H || discriminate H).
    + intros T. eexists. right. rewrite !in_app_iff, !in_only_if.
      right. right. split; [exact T | reflexivity].
Qed.

End Rendering.

Section Composition.

Variable getRelativeTime : option string -> string.

Local Abbreviation content := (EventContent getRelativeTime).

(** C8. The speakers section shows at most two cards: the first
    speaker's card iff the first speaker's name is truthy, then the second
    speaker's card iff the second speaker's name is truthy.  When both
    names are absent the section renders nothing. *)
Theorem SpeakersSection_cards (event : Events) :
  let first := JS.truthy_str (firstSpeaker (fields event)) in
  let second := JS.truthy_str (secondSpeaker (fields event)) in
  SpeakersSection event =
    (if first || second
     then Some (only_if first (first_card event)
                ++ only_if second (second_card event (if first then 1 else 0)))%list
     else None) /\
  length (cards event) <= 2 /\
  (first = false /\ second = false -> SpeakersSection event = None).
Proof.
  unfold cards, SpeakersSection, speakers; simpl.
  destruct (JS.truthy_str (firstSpeaker (fields event)));
    destruct (JS.truthy_str (secondSpeaker (fields event))); simpl;
    repeat split; auto; intros [H1 H2]; discriminate.
Qed.

(** The banner url after the fallback is never empty. *)
Lemma bannerImageUrl_truthy (event : Events) :
  JS.truthy (bannerImageUrl event) = true.
Proof.
  unfold bannerImageUrl, JS.or_default.
  destruct (buildImageUrl (bannerImage (fields event))) as [u |] eqn:E;
    [| reflexivity].
  pose proof (buildImageUrl_truthy _ _ E) as T. rewrite T. exact T.
Qed.

(** C9. When the resolver yields null for the banner reference, the hero
    image is ["/hero_section.png"] and there is no standalone event-image
    section; in general that section is rendered exactly when the resolved
    banner url differs from ["/hero_section.png"]. *)
Theorem banner_fallback (event : Events) :
  (buildImageUrl (bannerImage (fields event)) = None ->
   src (hero (content event)) = "/hero_section.png" /\
   event_image (content event) = None) /\
  (event_image (content event) <> None <->
   bannerImageUrl event <> "/hero_section.png") /\
  src (hero (content event)) = bannerImageUrl event.
Proof.
  assert (R : event_image (content event) <> None <->
              bannerImageUrl event <> "/hero_section.png").
  { simpl. rewrite bannerImageUrl_truthy; simpl.
    destruct (String.eqb_spec (bannerImageUrl event) "/hero_section.png") as [E | E];
      simpl; split; intros H; try (now elim H); try discriminate; exact E. }
  split; [| split; [exact R | reflexivity]].
  intros N.
  assert (B : bannerImageUrl event = "/hero_section.png")
    by (unfold bannerImageUrl; now rewrite N).
  split; [exact B |].
  destruct (event_image (content event)) eqn:I; [| reflexivity].
  exfalso. apply (proj1 R); [discriminate | exact B].
Qed.

End Composition.

Lemma SpeakersSection_cards_witness :
  SpeakersSection Sample.bare = None.
Proof.
  apply (proj2 (proj2 (SpeakersSection_cards Sample.bare))).
  split; reflexivity.
Defined.

Lemma organizer_row_fallback_witness :
  In {| row_label := "ORGANIZER:"; row_body := Paragraph (Some "Ministry") |}
     (EventDetails Sample.verbatim_date Sample.workshop).
Proof.
  apply (proj1 (organizer_row_fallback Sample.verbatim_date Sample.workshop));
    reflexivity.
Defined.

Lemma banner_fallback_witness :
  src (hero (EventContent Sample.verbatim_date Sample.workshop)) = "/hero_section.png" /\
  event_image (EventContent Sample.verbatim_date Sample.workshop) = None.
Proof.
  apply (proj1 (banner_fallback Sample.verbatim_date Sample.workshop)).
  reflexivity.
Defined.

(** The built-in record shows its own banner twice, all four detail rows
    and no speakers. *)
Example hardcoded_content :
  let c := EventContent Sample.verbatim_date HARDCODED_EVENT_DATA in
  src (hero c) = "/event-imo.jpeg" /\
  event_image c = Some {| src := "/event-imo.jpeg"; alt := "Imo Economic Summit 2025" |} /\
  map row_label (details_section c) = ["DATE:"; "PHONE:"; "LOCATION:"; "ORGANIZER:"] /\
  speakers_section c = None.
Proof. repeat split. Qed.

Example workshop_content :
  let c := EventContent Sample.verbatim_date Sample.workshop in
  map row_label (details_section c) = ["DATE:"; "PHONE:"; "ORGANIZER:"] /\
  speakers_section c =
    Some [ {| card_speaker := "A. Surveyor";
              card_imageUrl := Some "https://images.ctfassets.net/space/banner.png";
              card_delay := STAGGER_MEDIUM 0 |} ].
Proof. repeat split. Qed.

(** ** Further properties of the image URL resolver *)

Lemma https_prefixed (u : string) :
  JS.startsWith ("https:" ++ u) "https:" = true /\
  JS.startsWith ("https:" ++ u) "/" = false /\
  JS.startsWith ("https:" ++ u) "//" = false.
Proof. repeat split; destruct u; reflexivity. Qed.

Lemma append_cancel_l (p a b : string) : p ++ a = p ++ b -> a = b.
Proof.
  induction p as [| c p IH]; simpl; intros E; [exact E |].
  injection E as E. now apply IH.
Qed.

Lemma resolved_url_loadable (imageField : option Asset) (v : string) :
  buildImageUrl imageField = Some v -> loadable v.
Proof.
  unfold buildImageUrl, loadable.
  destruct (asset_url imageField) as [u |]; [| discriminate].
  destruct (JS.truthy u); simpl.
  - destruct (JS.startsWith u "/") eqn:S1; simpl.
    + destruct (JS.startsWith u "//") eqn:S2; simpl; intros E; injection E as <-.
      * destruct (https_prefixed u) as (H1 & _ & H3). now split; [right |].
      * now split; [left |].
    + intros E; injection E as <-.
      destruct (https_prefixed u) as (H1 & _ & H3). now split; [right |].
  - discriminate.
Qed.

(** X1. Whatever the resolver returns can be loaded as it stands: it is
    host-relative or starts with ["https:"], it is never protocol-relative
    and never empty.  It is the url of the reference, verbatim or with
    ["https:"] put in front; nothing else of the url is changed. *)
Theorem buildImageUrl_loadable (imageField : option Asset) (v : string) :
  buildImageUrl imageField = Some v ->
  ((JS.startsWith v "/" = true \/ JS.startsWith v "https:" = true) /\
   JS.startsWith v "//" = false) /\
  v <> "" /\
  exists u, asset_url imageField = Some u /\ (v = u \/ v = "https:" ++ u).
Proof.
  intros E. split; [exact (resolved_url_loadable _ _ E) |].
  split; [apply truthy_nonempty; exact (buildImageUrl_truthy _ _ E) |].
  destruct (asset_url imageField) as [u |] eqn:A.
  - exists u. split; [reflexivity |].
    rewrite (buildImageUrl_of_url _ _ A) in E.
    destruct (JS.startsWith u "/" && negb (JS.startsWith u "//")).
    + left. now injection E.
    + destruct (JS.truthy u); [| discriminate E]. right. now injection E.
  - unfold buildImageUrl in E. rewrite A in E. discriminate E.
Qed.

Lemma buildImageUrl_loadable_witness :
  "https:" ++ Sample.cdn_banner <> "".
Proof.
  apply (buildImageUrl_loadable (Some (asset_of_url Sample.cdn_banner))).
  reflexivity.
Defined.

(** X2. The resolver returns null exactly when the url of the reference
    is falsy: undefined at some link of the chain, or empty. *)
Theorem buildImageUrl_null_iff (imageField : option Asset) :
  buildImageUrl imageField = None <->
  JS.truthy_str (asset_url imageField) = false.
Proof.
  unfold buildImageUrl.
  destruct (asset_url imageField) as [u |]; simpl; [| tauto].
  destruct (JS.truthy u); simpl.
  - destruct (JS.startsWith u "/" && negb (JS.startsWith u "//"));
      split; discriminate.
  - tauto.
Qed.

(** X3. Two references that resolve to the same url carry the same url:
    the resolver never maps different urls to one result. *)
Theorem buildImageUrl_injective (r1 r2 : option Asset) (v : string) :
  buildImageUrl r1 = Some v -> buildImageUrl r2 = Some v ->
  asset_url r1 = asset_url r2.
Proof.
  intros E1 E2.
  destruct (asset_url r1) as [u1 |] eqn:A1;
    [| unfold buildImageUrl in E1; rewrite A1 in E1; discriminate].
  destruct (asset_url r2) as [u2 |] eqn:A2;
    [| unfold buildImageUrl in E2; rewrite A2 in E2; discriminate].
  rewrite (buildImageUrl_of_url _ _ A1) in E1.
  rewrite (buildImageUrl_of_url _ _ A2) in E2.
  destruct (https_prefixed u1) as (_ & P1 & _).
  destruct (https_prefixed u2) as (_ & P2 & _).
  destruct (JS.startsWith u1 "/" && negb (JS.startsWith u1 "//")) eqn:B1;
    destruct (JS.startsWith u2 "/" && negb (JS.startsWith u2 "//")) eqn:B2.
  - congruence.
  - destruct (JS.truthy u2); [| discriminate].
    apply andb_prop in B1. destruct B1 as [B1 _]. congruence.
  - destruct (JS.truthy u1); [| discriminate].
    apply andb_prop in B2. destruct B2 as [B2 _]. congruence.
  - destruct (JS.truthy u1); [| discriminate].
    destruct (JS.truthy u2); [| discriminate].
    f_equal. apply (append_cancel_l "https:"). congruence.
Qed.

Lemma buildImageUrl_injective_witness :
  asset_url (Some (asset_of_url Sample.cdn_banner)) =
  asset_url (Some {| asset_fields :=
                       Some {| file := Some {| url := Some Sample.cdn_banner |} |} |}).
Proof.
  apply (buildImageUrl_injective _ _ ("https:" ++ Sample.cdn_banner)); reflexivity.
Defined.

(** ** Further properties of the loader and the page *)

Section Serving.

Variables (Remote Err : Type).
Variable getEventById : string -> Remote -> (Err + option Events) * Remote.
Variable getRelativeTime : option string -> string.

Local Abbreviation loader := (getEventData getEventById).
Local Abbreviation page := (EventDetailPage getEventById getRelativeTime).
Local Abbreviation shown := (fun event => Suspense LoadingState (EventContent getRelativeTime event)).

(** The loader on any id but the built-in one, by what the lookup does. *)
Lemma getEventData_remote (i : string) (w : World Remote Err) :
  i <> "imo-economic-summit-2025" ->
  loader i w =
    match getEventById i (remote w) with
    | (inr v, r) =>
        (inr v,
         {| remote := r;
            calls := (calls w ++ [CallGetEventData i; CallGetEventById i])%list |})
    | (inl e, r) =>
        (inr None,
         {| remote := r;
            calls := (calls w ++ [CallGetEventData i; CallGetEventById i;
                                  CallConsoleError "Error fetching event:" (Rejected e)])%list |})
    end.
Proof.
  intros N. apply String.eqb_neq in N.
  unfold getEventData, bind, try_catch, record; simpl. rewrite N.
  unfold contentfulService_getEventById, ret; simpl.
  destruct (getEventById i (remote w)) as [[e | v] r]; simpl;
    unfold console_error, record, bind, ret; simpl;
    now rewrite <- !app_assoc.
Qed.

Lemma getEventData_builtin (w : World Remote Err) :
  loader "imo-economic-summit-2025" w =
    (inr (Some HARDCODED_EVENT_DATA),
     {| remote := remote w;
        calls := (calls w ++ [CallGetEventData "imo-economic-summit-2025"])%list |}).
Proof. reflexivity. Qed.

(** X4. A run of the loader logs its own entry and then one of three
    things: nothing (the built-in id, collaborator untouched); a single
    lookup of the very id it was given (the lookup resolved); or that
    lookup followed by one console error carrying what the lookup threw.
    It never looks up another id and never looks up twice. *)
Theorem getEventData_calls (i : string) (w : World Remote Err) :
  exists new : list (Call Err),
    calls (snd (loader i w)) = (calls w ++ CallGetEventData i :: new)%list /\
    ((i = "imo-economic-summit-2025" /\ new = [] /\
      remote (snd (loader i w)) = remote w) \/
     (i <> "imo-economic-summit-2025" /\ new = [CallGetEventById i] /\
      exists v, getEventById i (remote w) = (inr v, remote (snd (loader i w)))) \/
     (i <> "imo-economic-summit-2025" /\
      exists e,
        new = [CallGetEventById i;
               CallConsoleError "Error fetching event:" (Rejected e)] /\
        getEventById i (remote w) = (inl e, remote (snd (loader i w))))).
Proof.
  destruct (String.eqb_spec i "imo-economic-summit-2025") as [-> | N].
  - exists []. rewrite getEventData_builtin. simpl. split; [reflexivity |].
    left. now repeat split.
  - rewrite (getEventData_remote i w N).
    destruct (getEventById i (remote w)) as [[e | v] r] eqn:E; simpl.
    + eexists. split; [reflexivity |]. right. right.
      split; [exact N |]. exists e. now split.
    + eexists. split; [reflexivity |]. right. left.
      split; [exact N |]. split; [reflexivity |]. now exists v.
Qed.

(** X5. For any id but the built-in one, when the lookup resolves the
    loader hands back exactly what the lookup resolved to, a record or
    none, together with the collaborator's new state, and writes nothing
    to the console. *)
Theorem getEventData_passes_through
    (i : string) (w : World Remote Err) (v : option Events) (r : Remote) :
  i <> "imo-economic-summit-2025" ->
  getEventById i (remote w) = (inr v, r) ->
  loader i w =
    (inr v,
     {| remote := r;
        calls := (calls w ++ [CallGetEventData i; CallGetEventById i])%list |}).
Proof. intros N E. rewrite (getEventData_remote i w N), E. reflexivity. Qed.

(** X6. The page ends either in the not-found outcome or with the content
    of some event: whatever the collaborator throws never escapes it. *)
Theorem EventDetailPage_never_leaks (props : PageProps) (w : World Remote Err) :
  outcome (page props) w = inl NEXT_NOT_FOUND \/
  exists event, outcome (page props) w = inr (shown event).
Proof.
  unfold outcome.
  destruct (actualEventId props) as [i |] eqn:A;
    [| left; unfold EventDetailPage; now rewrite A].
  destruct (JS.truthy i) eqn:T;
    [| left; unfold EventDetailPage; now rewrite A, T].
  rewrite (EventDetailPage_with_id _ _ _ _ props i w A T).
  destruct (getEventData_total _ _ getEventById i w) as [v Hv].
  unfold outcome in Hv.
  destruct (loader i w) as [[t | [event |]] w']; simpl in *.
  - discriminate Hv.
  - right. now exists event.
  - now left.
Qed.

(** X7. The page shows content exactly when the resolved id is truthy and
    the loader returns a record for it, and what it shows is the content
    of that record. *)
Theorem EventDetailPage_shows_iff
    (props : PageProps) (w : World Remote Err) (view : PageView) :
  outcome (page props) w = inr view <->
  exists i event,
    actualEventId props = Some i /\ JS.truthy i = true /\
    outcome (loader i) w = inr (Some event) /\ view = shown event.
Proof.
  unfold outcome. split.
  - destruct (actualEventId props) as [i |] eqn:A;
      [| unfold EventDetailPage; rewrite A; discriminate].
    destruct (JS.truthy i) eqn:T;
      [| unfold EventDetailPage; rewrite A, T; discriminate].
    rewrite (EventDetailPage_with_id _ _ _ _ props i w A T).
    intros H. exists i.
    destruct (loader i w) as [[t | [event |]] w']; simpl in *; try discriminate.
    exists event. injection H as <-. now repeat split.
  - intros (i & event & A & T & L & ->).
    rewrite (EventDetailPage_with_id _ _ _ _ props i w A T).
    destruct (loader i w) as [[t | [e |]] w']; simpl in *; try discriminate.
    now injection L as ->.
Qed.

(** X8. A falsy query id, whether an empty string, an empty array or an
    array whose first entry is empty, counts for nothing: the page runs as
    if the request had no query id at all. *)
Theorem falsy_query_id_is_ignored (props : PageProps) (w : World Remote Err) :
  JS.truthy_str (eventIdFromSearch props) = false ->
  page props w =
    page {| params_id := params_id props; searchParams_id := SearchUndefined |} w.
Proof.
  intros F. unfold EventDetailPage, actualEventId, JS.or_str.
  rewrite F. reflexivity.
Qed.

(** Of a query id given several times only the first value counts:
    the page runs as if that first value were the only one. *)
Theorem repeated_query_id_uses_first
    (path : option string) (x : string) (more : list string) (w : World Remote Err) :
  page {| params_id := path; searchParams_id := SearchArray (x :: more) |} w =
  page {| params_id := path; searchParams_id := SearchString x |} w.
Proof. reflexivity. Qed.

(** X9. A request that resolves to the built-in id is always answered
    with the content of the built-in record; the collaborator is left
    alone. *)
Theorem EventDetailPage_builtin (props : PageProps) (w : World Remote Err) :
  actualEventId props = Some "imo-economic-summit-2025" ->
  page props w =
    (inr (shown HARDCODED_EVENT_DATA),
     {| remote := remote w;
        calls := (calls w ++ [CallGetEventData "imo-economic-summit-2025"])%list |}).
Proof.
  intros A.
  rewrite (EventDetailPage_with_id _ _ _ _ props _ w A eq_refl).
  now rewrite getEventData_builtin.
Qed.

(** X10. Every lookup the page causes is a lookup of the id resolved from
    the request, and that id is non-empty and is not the built-in one. *)
Theorem EventDetailPage_lookups
    (props : PageProps) (w : World Remote Err) (i : string) :
  In (CallGetEventById i) (calls (snd (page props w))) ->
  In (CallGetEventById i) (calls w) \/
  (actualEventId props = Some i /\ JS.truthy i = true /\
   i <> "imo-economic-summit-2025").
Proof.
  destruct (actualEventId props) as [j |] eqn:A;
    [| unfold EventDetailPage; rewrite A; now left].
  destruct (JS.truthy j) eqn:T;
    [| unfold EventDetailPage; rewrite A, T; now left].
  rewrite (EventDetailPage_with_id _ _ _ _ props j w A T).
  assert (S : snd (match loader j w with
                   | (inr (Some event), w') => (inr (shown event), w')
                   | (inr None, w') => (inl NEXT_NOT_FOUND, w')
                   | (inl t, w') => (inl t, w')
                   end) = snd (loader j w))
    by (destruct (loader j w) as [[t | [event |]] w']; reflexivity).
  rewrite S.
  destruct (getEventData_calls j w) as (new & -> & H).
  rewrite in_app_iff. simpl.
  intros [H1 | [H1 | H1]]; [now left | discriminate H1 |].
  right.
  destruct H as [(_ & -> & _) | [(N & -> & _) | (N & e & -> & _)]].
  - destruct H1.
  - destruct H1 as [H1 | []]. injection H1 as ->. now repeat split.
  - destruct H1 as [H1 | [H1 | []]]; [| discriminate H1].
    injection H1 as ->. now repeat split.
Qed.

(** X11. With a collaborator that answers a lookup only with a record of
    the id asked for, every record the loader returns carries the id the
    loader was given; the built-in record carries the built-in id. *)
Theorem getEventData_same_id
    (i : string) (w : World Remote Err) (event : Events) :
  id_faithful getEventById ->
  outcome (loader i) w = inr (Some event) ->
  id (sys event) = i.
Proof.
  intros F. unfold outcome.
  destruct (String.eqb_spec i "imo-economic-summit-2025") as [-> | N].
  - rewrite getEventData_builtin. simpl. intros H. now injection H as <-.
  - rewrite (getEventData_remote i w N).
    destruct (getEventById i (remote w)) as [[e | v] r] eqn:E; simpl.
    + discriminate.
    + intros H. injection H as ->. exact (F i (remote w) r event E).
Qed.

End Serving.

Lemma getEventData_passes_through_witness :
  getEventData Sample.catalogue "workshop-1" Sample.idle =
    (inr (Some Sample.workshop),
     {| remote := 1;
        calls := [CallGetEventData "workshop-1"; CallGetEventById "workshop-1"] |}).
Proof.
  apply (getEventData_passes_through nat string Sample.catalogue
           "workshop-1" Sample.idle (Some Sample.workshop) 1).
  - discriminate.
  - reflexivity.
Defined.

Lemma falsy_query_id_is_ignored_witness :
  EventDetailPage Sample.catalogue Sample.verbatim_date Sample.empty_first_query
                  Sample.idle =
  EventDetailPage Sample.catalogue Sample.verbatim_date Sample.path_only Sample.idle.
Proof.
  apply (falsy_query_id_is_ignored nat string Sample.catalogue Sample.verbatim_date
           Sample.empty_first_query Sample.idle).
  reflexivity.
Defined.

Lemma EventDetailPage_builtin_witness :
  outcome (EventDetailPage Sample.unreachable Sample.verbatim_date Sample.summit_query)
          Sample.fresh =
    inr (Suspense LoadingState
           (EventContent Sample.verbatim_date HARDCODED_EVENT_DATA)).
Proof.
  unfold outcome.
  rewrite (EventDetailPage_builtin unit string Sample.unreachable
             Sample.verbatim_date Sample.summit_query Sample.fresh);
    reflexivity.
Defined.

Lemma EventDetailPage_lookups_witness :
  actualEventId Sample.workshop_path = Some "workshop-1" /\
  JS.truthy "workshop-1" = true /\ "workshop-1" <> "imo-economic-summit-2025".
Proof.
  destruct (EventDetailPage_lookups nat string Sample.catalogue Sample.verbatim_date
              Sample.workshop_path Sample.idle "workshop-1") as [H | H].
  - simpl. right. left. reflexivity.
  - destruct H.
  - exact H.
Defined.

Lemma getEventData_same_id_witness :
  id (sys Sample.workshop) = "workshop-1".
Proof.
  apply (getEventData_same_id nat string Sample.catalogue
           "workshop-1" Sample.idle Sample.workshop).
  - intros i r r' event H. unfold Sample.catalogue in H.
    destruct (String.eqb_spec i "workshop-1") as [-> | N].
    + injection H as <- _. reflexivity.
    + discriminate H.
  - reflexivity.
Defined.

(** ** Further properties of the page sections *)

Lemma or_default_truthy (a : option string) (d : string) :
  JS.truthy d = true -> JS.truthy (JS.or_default a d) = true.
Proof.
  intros D. destruct a as [s |]; simpl; [| exact D].
  destruct (JS.truthy s) eqn:T; [exact T | exact D].
Qed.

Lemma mapi_from_length {A B : Type} (f : A -> nat -> B) (i : nat) (xs : list A) :
  length (mapi_from f i xs) = length xs.
Proof.
  revert i. induction xs as [| x xs IH]; intros i; simpl; [reflexivity |].
  now rewrite IH.
Qed.

Lemma mapi_from_delays (i : nat) (xs : list Speaker.t) :
  map card_delay (mapi_from render_speaker i xs) =
  map STAGGER_MEDIUM (seq i (length xs)).
Proof.
  revert i. induction xs as [| x xs IH]; intros i; simpl; [reflexivity |].
  now rewrite IH.
Qed.

Lemma cards_mapi (event : Events) :
  cards event = mapi_from render_speaker 0 (speakers event).
Proof.
  unfold cards, SpeakersSection.
  destruct (speakers event) as [| x xs]; reflexivity.
Qed.

(** Each card comes from one of the two speakers: its name is that
    speaker's truthy name and its picture that speaker's resolved
    picture. *)
Lemma card_origin (event : Events) (card : SpeakerCard) :
  In card (cards event) ->
  exists (n : option string) (picture : option Asset),
    ((n = firstSpeaker (fields event) /\
      picture = firstSpeakerPicture (fields event)) \/
     (n = secondSpeaker (fields event) /\
      picture = secondSpeakerPicture (fields event))) /\
    n = Some (card_speaker card) /\
    JS.truthy (card_speaker card) = true /\
    card_imageUrl card = buildImageUrl picture.
Proof.
  unfold cards, SpeakersSection, speakers; simpl.
  destruct (firstSpeaker (fields event)) as [f |] eqn:F;
    destruct (secondSpeaker (fields event)) as [s |] eqn:S; simpl;
    try destruct (JS.truthy f) eqn:Tf; try destruct (JS.truthy s) eqn:Ts; simpl;
    intros H; repeat (destruct H as [<- | H]); try contradiction; simpl;
    rewrite ?Tf, ?Ts.
  all: try (exists (Some f), (firstSpeakerPicture (fields event));
            split; [left; now split | now repeat split]).
  all: try (exists (Some s), (secondSpeakerPicture (fields event));
            split; [right; now split | now repeat split]).
Qed.

Section Showing.

Variable getRelativeTime : option string -> string.

Local Abbreviation rows := (EventDetails getRelativeTime).
Local Abbreviation content := (EventContent getRelativeTime).

(** X12. The detail rows carry pairwise different labels, so the labels
    serve as list keys, and there are between one and four rows. *)
Theorem EventDetails_keys (event : Events) :
  NoDup (map row_label (rows event)) /\
  1 <= length (rows event) <= 4.
Proof.
  rewrite EventDetails_rows.
  destruct (JS.truthy_str (contactPhoneNumber (fields event)));
    destruct (JS.truthy_str (location (fields event)));
    destruct (JS.truthy_obj (ministry (fields event))); simpl;
    (split; [repeat constructor; simpl; intuition discriminate
            | split; repeat constructor]).
Qed.

(** X13. Only the PHONE row is a link.  Its target is ["tel:"] followed by
    the phone number of the record, which is then non-empty: a link to
    ["tel:undefined"] is never rendered. *)
Theorem EventDetails_tel_link (event : Events) (row : DetailRow) :
  In row (rows event) ->
  match row_body row with
  | TelLink href text =>
      row_label row = "PHONE:" /\
      exists p, contactPhoneNumber (fields event) = Some p /\
                JS.truthy p = true /\ href = "tel:" ++ p /\ text = Some p
  | Paragraph _ => row_label row <> "PHONE:"
  end.
Proof.
  rewrite EventDetails_rows. intros [<- | H]; [simpl; discriminate |].
  rewrite !in_app_iff, !in_only_if in H.
  destruct H as [[T ->] | [[T ->] | [T ->]]]; simpl; try discriminate.
  split; [reflexivity |].
  destruct (contactPhoneNumber (fields event)) as [p |]; [| discriminate T].
  exists p. now repeat split.
Qed.

(** X14. Every row but the DATE row shows a non-empty text. *)
Theorem EventDetails_texts (event : Events) (row : DetailRow) :
  In row (rows event) -> row_label row <> "DATE:" ->
  exists text, body_text (row_body row) = Some text /\ JS.truthy text = true.
Proof.
  rewrite EventDetails_rows. intros [<- | H] N; [now elim N |].
  rewrite !in_app_iff, !in_only_if in H.
  destruct H as [[T ->] | [[T ->] | [T ->]]]; simpl.
  - destruct (contactPhoneNumber (fields event)) as [p |]; [| discriminate T].
    now exists p.
  - destruct (location (fields event)) as [l |]; [| discriminate T].
    now exists l.
  - eexists. split; [reflexivity |]. now apply or_default_truthy.
Qed.

(** X15. When the ministry has a non-empty name, the ORGANIZER row shows
    that name. *)
Theorem organizer_row_name (event : Events) (n : string) :
  ministry (fields event) ?. ministry_fields ?. ministryName = Some n ->
  JS.truthy n = true ->
  In {| row_label := "ORGANIZER:"; row_body := Paragraph (Some n) |} (rows event).
Proof.
  intros E T. rewrite EventDetails_rows. right.
  rewrite !in_app_iff, !in_only_if. right. right. split.
  - destruct (ministry (fields event)); [reflexivity | discriminate E].
  - unfold organizer_row. rewrite E. simpl. now rewrite T.
Qed.

(** X16. Every speaker card is headed by the non-empty name of the first
    or of the second speaker: the ["Speaker"] stand-in is never shown in
    place of a name. *)
Theorem SpeakersSection_names (event : Events) (card : SpeakerCard) :
  In card (cards event) ->
  JS.truthy (card_speaker card) = true /\
  (firstSpeaker (fields event) = Some (card_speaker card) \/
   secondSpeaker (fields event) = Some (card_speaker card)).
Proof.
  intros H. destruct (card_origin event card H) as (n & pic & O & E & T & _).
  split; [exact T |].
  destruct O as [[-> _] | [-> _]]; [now left | now right].
Qed.

(** X17. The cards take the stagger delays in order from the first one
    on: a lone second speaker gets the first delay, not the second. *)
Theorem SpeakersSection_delays (event : Events) :
  map card_delay (cards event) =
  map STAGGER_MEDIUM (seq 0 (length (cards event))).
Proof.
  rewrite cards_mapi, mapi_from_length. apply mapi_from_delays.
Qed.

(** X18. There are as many cards as there are truthy speaker names, and a
    speakers section that is rendered has at least one card. *)
Theorem SpeakersSection_count (event : Events) :
  length (cards event) =
    (if JS.truthy_str (firstSpeaker (fields event)) then 1 else 0) +
    (if JS.truthy_str (secondSpeaker (fields event)) then 1 else 0) /\
  SpeakersSection event <> Some [].
Proof.
  unfold cards, SpeakersSection, speakers; simpl.
  destruct (JS.truthy_str (firstSpeaker (fields event)));
    destruct (JS.truthy_str (secondSpeaker (fields event))); simpl;
    split; (reflexivity || discriminate).
Qed.


(** X20. Every image of the page content has a source that can be loaded
    as it stands (host-relative or over https, never protocol-relative)
    and a non-empty alt text. *)
Theorem EventContent_images (event : Events) :
  Forall (fun i => loadable (src i) /\ JS.truthy (alt i) = true)
         (images (content event)).
Proof.
  assert (B : loadable (bannerImageUrl event)).
  { unfold bannerImageUrl.
    destruct (buildImageUrl (bannerImage (fields event))) as [u |] eqn:E; simpl.
    - rewrite (buildImageUrl_truthy _ _ E). exact (resolved_url_loadable _ _ E).
    - now split; [left |]. }
  apply Forall_forall. intros i H. unfold images in H.
  destruct H as [<- | H]; [| apply in_app_or in H; destruct H as [H | H]].
  - simpl. split; [exact B | now apply or_default_truthy].
  - simpl in H.
    destruct (JS.truthy (bannerImageUrl event)
              && negb (bannerImageUrl event =? "/hero_section.png"));
      [| destruct H].
    destruct H as [<- | []]. simpl.
    split; [exact B | now apply or_default_truthy].
  - change (speakers_section (content event)) with (SpeakersSection event) in H.
    assert (H' : In i (flat_map
                         (fun card =>
                            match view_image (SpeakerCard_view card) with
                            | Some i => [i]
                            | None => []
                            end) (cards event))).
    { unfold cards. destruct (SpeakersSection event); [exact H | destruct H]. }
    apply in_flat_map in H'. destruct H' as (card & Hc & Hi).
    destruct (card_origin event card Hc) as (n & pic & _ & _ & T & E).
    unfold SpeakerCard_view in Hi; simpl in Hi.
    destruct (card_imageUrl card) as [u |]; [| destruct Hi].
    destruct (JS.truthy u); [| destruct Hi].
    destruct Hi as [<- | []]. simpl.
    split; [exact (resolved_url_loadable pic u (eq_sym E)) | exact T].
Qed.

(** X21. The standalone event image, when there is one, shows what the
    hero shows: the resolved banner url, which then is not the fallback
    picture. *)
Theorem event_image_is_banner (event : Events) (i : ImageView) :
  event_image (content event) = Some i ->
  src i = src (hero (content event)) /\
  buildImageUrl (bannerImage (fields event)) = Some (src i) /\
  src i <> "/hero_section.png".
Proof.
  simpl. rewrite bannerImageUrl_truthy; simpl.
  destruct (String.eqb_spec (bannerImageUrl event) "/hero_section.png") as [E | N];
    simpl; [discriminate |].
  intros H. injection H as <-. simpl. split; [reflexivity |].
  split; [| exact N].
  unfold bannerImageUrl in *.
  destruct (buildImageUrl (bannerImage (fields event))) as [u |] eqn:E; simpl in *.
  - now rewrite (buildImageUrl_truthy _ _ E).
  - now elim N.
Qed.

End Showing.

Lemma EventDetails_tel_link_witness :
  exists p,
    contactPhoneNumber (fields Sample.workshop) = Some p /\
    JS.truthy p = true /\
    "tel:+234 800 000 0000" = "tel:" ++ p /\
    Some "+234 800 000 0000" = Some p.
Proof.
  apply (EventDetails_tel_link Sample.verbatim_date Sample.workshop
           {| row_label := "PHONE:";
              row_body := TelLink "tel:+234 800 000 0000" (Some "+234 800 000 0000") |}).
  simpl. right. left. reflexivity.
Defined.

Lemma EventDetails_texts_witness :
  exists text,
    body_text (Paragraph (Some "Ministry")) = Some text /\ JS.truthy text = true.
Proof.
  apply (EventDetails_texts Sample.verbatim_date Sample.workshop
           {| row_label := "ORGANIZER:"; row_body := Paragraph (Some "Ministry") |}).
  - simpl. right. right. left. reflexivity.
  - discriminate.
Defined.

Lemma organizer_row_name_witness :
  In {| row_label := "ORGANIZER:"; row_body := Paragraph (Some "Ministry of Lands") |}
     (EventDetails Sample.verbatim_date Sample.panel).
Proof.
  apply (organizer_row_name Sample.verbatim_date Sample.panel "Ministry of Lands");
    reflexivity.
Defined.

Lemma SpeakersSection_names_witness :
  JS.truthy "A. Surveyor" = true /\
  (firstSpeaker (fields Sample.panel) = Some "A. Surveyor" \/
   secondSpeaker (fields Sample.panel) = Some "A. Surveyor").
Proof.
  apply (SpeakersSection_names Sample.panel
           {| card_speaker := "A. Surveyor";
              card_imageUrl := Some "/speakers/a.png";
              card_delay := STAGGER_MEDIUM 1 |}).
  simpl. right. left. reflexivity.
Defined.


Lemma event_image_is_banner_witness :
  buildImageUrl (bannerImage (fields Sample.panel)) =
    Some ("https:" ++ Sample.cdn_banner).
Proof.
  apply (event_image_is_banner Sample.verbatim_date Sample.panel
           {| src := "https:" ++ Sample.cdn_banner; alt := "Event image" |}).
  reflexivity.
Defined.
